(** * rich_logger: a shallow embedding of [RichLogger] and its logging substrate

    The development follows [src/rich_logger/rich_logger.py]:

    - [LOG_CATEGORIES], the class-level table of semantic categories;
    - [RichLogger.__init__], which obtains the named logger from the
      process-wide registry of the [logging] module, sets its level,
      attaches a [RichHandler] when the logger has no handler yet, and then
      binds one method per table entry on the instance;
    - [RichLogger.log], which formats the coloured label and hands the text
      to [Logger.log];
    - [RichLogger._attach_log_methods], the loop of [setattr] calls.

    The standard [logging] module is the collaborator the class drives.  Its
    registry, the logger hierarchy and the dispatch of a record to handlers
    are modelled here as far as the class reads or writes them: level,
    handler list and propagate flag of each logger.  The switches the class
    never touches ([Logger.disabled], [logging.disable], filters) stay at
    their defaults and are not represented. *)

From Stdlib Require Import ZArith Ascii String.
From stdpp Require Import gmap strings list fin_maps.

Local Open Scope Z_scope.

(* ===================================================================== *)
(** ** Strings: what the f-strings and [str.upper] compute *)
(* ===================================================================== *)

Module PyStr.

Fixpoint spaces (n : nat) : string :=
  match n with
  | O => EmptyString
  | S n' => String " "%char (spaces n')
  end.

(** [format(s, "<w")]: left-aligned in a field of minimum width [w],
    padded with spaces; a longer string is left as it is. *)
Definition ljust (s : string) (w : nat) : string :=
  s +:+ spaces (w - String.length s).

Definition upper_ascii (c : ascii) : ascii :=
  let n := nat_of_ascii c in
  if (Nat.leb 97 n && Nat.leb n 122)%bool then ascii_of_nat (n - 32) else c.

(** [str.upper] on the ASCII range. *)
Fixpoint upper (s : string) : string :=
  match s with
  | EmptyString => EmptyString
  | String c s' => String (upper_ascii c) (upper s')
  end.


(** [s.rfind(".", 0, e)]: the largest index [j < e] holding a dot. *)
Fixpoint rfind_dot (s : string) (e : nat) : option nat :=
  match e with
  | O => None
  | S j =>
      match String.get j s with
      | Some "."%char => Some j
      | _ => rfind_dot s j
      end
  end.

End PyStr.

(* ===================================================================== *)
(** ** Levels of the [logging] module *)
(* ===================================================================== *)

Definition NOTSET : Z := 0.
Definition DEBUG : Z := 10.
Definition INFO : Z := 20.
Definition WARNING : Z := 30.
Definition ERROR : Z := 40.
Definition CRITICAL : Z := 50.

(* ===================================================================== *)
(** ** The category table *)
(* ===================================================================== *)

(** One value of [LOG_CATEGORIES]: the dict with keys ["label"], ["color"]
    and ["level"]. *)
Record Descriptor := mkDescriptor {
  label : string;
  color : string;
  level : Z
}.

#[global] Instance Descriptor_eq_dec : EqDecision Descriptor.
Proof. solve_decision. Defined.

(** A Python dict in insertion order: the keys are pairwise distinct. *)
Definition CategoryTable := list (string * Descriptor).

Fixpoint table_get (t : CategoryTable) (k : string) : option Descriptor :=
  match t with
  | [] => None
  | (k', d) :: t' => if String.eqb k' k then Some d else table_get t' k
  end.

Definition table_keys (t : CategoryTable) : list string := t.*1.

Definition LOG_CATEGORIES : CategoryTable :=
  [ (* I/O Management *)
    ("read"%string,    mkDescriptor "READ"     "magenta" INFO);
    ("write"%string,   mkDescriptor "WRITE"    "magenta" INFO);
    ("meta"%string,    mkDescriptor "METADATA" "magenta" INFO);
    (* Processing Checkpoints *)
    ("stage"%string,   mkDescriptor "STAGE"    "blue"    INFO);
    ("step"%string,    mkDescriptor "STEP"     "blue"    INFO);
    ("substep"%string, mkDescriptor "SUB"      "blue"    INFO);
    ("info"%string,    mkDescriptor "STATUS"   "blue"    INFO);
    (* Processing Figures *)
    ("config"%string,  mkDescriptor "CONFIG"   "cyan"    INFO);
    ("metric"%string,  mkDescriptor "METRIC"   "cyan"    INFO);
    ("result"%string,  mkDescriptor "RESULT"   "cyan"    INFO);
    (* Warnings and Errors *)
    ("warning"%string, mkDescriptor "WARNING"  "yellow"  WARNING);
    ("alert"%string,   mkDescriptor "ALERT"    "red"     ERROR);
    ("error"%string,   mkDescriptor "ERROR"    "red"     ERROR);
    (* Code Development *)
    ("check"%string,   mkDescriptor "CHECK"    "green"   DEBUG);
    ("debug"%string,   mkDescriptor "DEBUG"    "green"   DEBUG) ].

(* ===================================================================== *)
(** ** The [logging] module: handlers, loggers, the registry *)
(* ===================================================================== *)

(** What [sys.exc_info()] finds: the exception being handled, if any. *)
Definition Exc := string.

Inductive HandlerKind :=
| RichHandler (console : nat)
    (show_time show_level show_path markup rich_tracebacks : bool)
| ForeignHandler (tag : nat)     (* a handler attached by other code *)
| LastResort.                    (* [logging.lastResort] *)

Record Handler := mkHandler {
  kind : HandlerKind;
  handler_level : Z
}.

Record Logger := mkLogger {
  logger_level : Z;
  handlers : list Handler;
  propagate : bool
}.

(** [record.exc_info]: [None] when no traceback was asked for,
    [Some None] for the triple [(None, None, None)] that [sys.exc_info()]
    returns outside an [except] block, [Some (Some e)] for the exception
    being handled. *)
Record LogRecord := mkRecord {
  logger_name : string;
  levelno : Z;
  msg : string;
  exc_info : option (option Exc)
}.

#[global] Instance HandlerKind_eq_dec : EqDecision HandlerKind.
Proof. solve_decision. Defined.
#[global] Instance Handler_eq_dec : EqDecision Handler.
Proof. solve_decision. Defined.
#[global] Instance Logger_eq_dec : EqDecision Logger.
Proof. solve_decision. Defined.
#[global] Instance LogRecord_eq_dec : EqDecision LogRecord.
Proof. solve_decision. Defined.

(** [Manager.loggerDict] (place holders left out) and the root logger. *)
Record Logging := mkLogging {
  root : Logger;
  loggerDict : gmap string Logger
}.

(** A reference to a logger object: the root, or a name of the registry. *)
Definition LoggerRef := option string.

Definition new_logger : Logger := mkLogger NOTSET [] true.

Definition ref_name (r : LoggerRef) : string :=
  match r with None => "root" | Some n => n end.

Definition logger_at (r : LoggerRef) (L : Logging) : Logger :=
  match r with
  | None => root L
  | Some n => default new_logger (loggerDict L !! n)
  end.

Definition logger_put (r : LoggerRef) (lg : Logger) (L : Logging) : Logging :=
  match r with
  | None => mkLogging lg (loggerDict L)
  | Some n => mkLogging (root L) (<[n := lg]> (loggerDict L))
  end.

(** [logging.getLogger(name)]: the root for [""] and ["root"], otherwise
    the registered logger, created on first use. *)
Definition getLogger (name : string) (L : Logging) : LoggerRef * Logging :=
  if (String.eqb name "" || String.eqb name "root")%bool then (None, L)
  else match loggerDict L !! name with
       | Some _ => (Some name, L)
       | None => (Some name, logger_put (Some name) new_logger L)
       end.

Definition setLevel (r : LoggerRef) (lv : Z) (L : Logging) : Logging :=
  let lg := logger_at r L in
  logger_put r (mkLogger lv (handlers lg) (propagate lg)) L.

(** [Logger.addHandler]: a handler object that is new is appended. *)
Definition addHandler (r : LoggerRef) (h : Handler) (L : Logging) : Logging :=
  let lg := logger_at r L in
  logger_put r (mkLogger (logger_level lg) (handlers lg ++ [h]) (propagate lg)) L.

Definition set_propagate (r : LoggerRef) (b : bool) (L : Logging) : Logging :=
  let lg := logger_at r L in
  logger_put r (mkLogger (logger_level lg) (handlers lg) b) L.

(** *** The hierarchy of dotted names *)

(** The loop of [Manager._fixupParents]: the prefixes [name[:i]] for the
    dots found from the right, each search ending one short of the last. *)
Fixpoint fixup_loop (fuel : nat) (s : string) (i : option nat) : list string :=
  match fuel, i with
  | S fuel', Some i' =>
      if Nat.ltb 0 i'
      then String.substring 0 i' s :: fixup_loop fuel' s (PyStr.rfind_dot s (i' - 1))
      else []
  | _, _ => []
  end.

Definition dotted_prefixes (s : string) : list string :=
  fixup_loop (String.length s) s (PyStr.rfind_dot s (String.length s)).

(** The parent of a named logger: the nearest registered dotted prefix,
    the root when there is none. *)
Definition parent_of (n : string) (L : Logging) : LoggerRef :=
  match list_find (fun p => is_Some (loggerDict L !! p)) (dotted_prefixes n) with
  | Some (_, p) => Some p
  | None => None
  end.

(** The logger and its ancestors up to the root, as [c = c.parent] walks. *)
Fixpoint lineage_from (fuel : nat) (r : LoggerRef) (L : Logging) : list Logger :=
  match r with
  | None => [root L]
  | Some n =>
      logger_at r L ::
      match fuel with
      | O => [root L]
      | S fuel' => lineage_from fuel' (parent_of n L) L
      end
  end.

Definition lineage (r : LoggerRef) (L : Logging) : list Logger :=
  lineage_from (String.length (ref_name r)) r L.

(** [Logger.getEffectiveLevel]: the first level that is set on the way up. *)
Fixpoint first_set_level (chain : list Logger) : Z :=
  match chain with
  | [] => NOTSET
  | c :: up => if Z.eqb (logger_level c) 0 then first_set_level up else logger_level c
  end.

Definition getEffectiveLevel (r : LoggerRef) (L : Logging) : Z :=
  first_set_level (lineage r L).

(** [Logger.isEnabledFor], with [manager.disable] at its default of 0. *)
Definition isEnabledFor (r : LoggerRef) (lv : Z) (L : Logging) : bool :=
  if Z.leb lv 0 then false else Z.leb (getEffectiveLevel r L) lv.

Definition Delivery : Type := Handler * LogRecord.

(** The loop of [Logger.callHandlers]: the number of handlers seen and
    the handlers that accept the record, stopping where propagation is off. *)
Fixpoint walk_handlers (chain : list Logger) (rec : LogRecord)
  : nat * list Delivery :=
  match chain with
  | [] => (O, [])
  | c :: up =>
      let here := List.filter (fun h => Z.leb (handler_level h) (levelno rec)) (handlers c) in
      let '(found, out) := if propagate c then walk_handlers up rec else (O, []) in
      ((length (handlers c) + found)%nat, List.map (fun h => (h, rec)) here ++ out)
  end.

Definition lastResort : Handler := mkHandler LastResort WARNING.

Definition callHandlers (r : LoggerRef) (rec : LogRecord) (L : Logging)
  : list Delivery :=
  let '(found, out) := walk_handlers (lineage r L) rec in
  if Nat.eqb found 0
  then (if Z.leb (handler_level lastResort) (levelno rec) then [(lastResort, rec)] else [])
  else out.

(** What one call produced: the records made by [Logger.makeRecord] and
    the handlers each was handed to. *)
Record Emitted := mkEmitted {
  records : list LogRecord;
  deliveries : list Delivery
}.

Definition nothing : Emitted := mkEmitted [] [].

(** [Logger.log(level, msg, exc_info=flag)] with no further arguments: the
    text is not interpolated, [exc_info=True] is resolved by
    [sys.exc_info()]. *)
Definition Logger_log (r : LoggerRef) (lv : Z) (text : string) (flag : bool)
    (active : option Exc) (L : Logging) : Emitted :=
  if isEnabledFor r lv L then
    let rec := mkRecord (ref_name r) lv text (if flag then Some active else None) in
    mkEmitted [rec] (callHandlers r rec L)
  else nothing.

(* ===================================================================== *)
(** ** The process state and the objects of class [RichLogger] *)
(* ===================================================================== *)

(** The mutable state the class works on: its own class attribute
    [LOG_CATEGORIES], the registry of the [logging] module, and the number
    of [Console] objects made so far (the next one's identity). *)
Record World := mkWorld {
  class_table : CategoryTable;
  logging : Logging;
  consoles : nat
}.

(** A value stored in an instance's [__dict__]. *)
Inductive Attr :=
| AConsole (c : nat)                 (* [self.console] *)
| ALogger (r : LoggerRef)            (* [self.logger] *)
| ALogMethod (props : Descriptor).   (* [log_method] bound to the instance,
                                        its default [props] captured *)

(** The instance: its [__dict__]. *)
Abbreviation Instance := (gmap string Attr).

(** The attributes defined in the class body. *)
Inductive ClassAttr := CTable | CInit | CLog | CAttach.

Definition class_attr (k : string) : option ClassAttr :=
  if String.eqb k "LOG_CATEGORIES" then Some CTable
  else if String.eqb k "__init__" then Some CInit
  else if String.eqb k "log" then Some CLog
  else if String.eqb k "_attach_log_methods" then Some CAttach
  else None.

(** Names of the form [__x__] belong to the interpreter ([__class__],
    [__eq__], [__repr__], ...); what they do is outside this development. *)
Definition is_dunder (k : string) : bool :=
  (Nat.leb 4 (String.length k)
   && String.prefix "__" k
   && String.eqb (String.substring (String.length k - 2) 2 k) "__")%bool.

Inductive Lookup :=
| FoundInst (a : Attr)
| FoundClass (c : ClassAttr)
| FoundBuiltin
| NotFound.

(** [self.k]: the instance's [__dict__] first (methods and plain class
    attributes do not take precedence over it), then the class. *)
Definition getattr (self : Instance) (k : string) : Lookup :=
  match self !! k with
  | Some a => FoundInst a
  | None =>
      match class_attr k with
      | Some c => FoundClass c
      | None => if is_dunder k then FoundBuiltin else NotFound
      end
  end.

Inductive PyError := AttributeError | TypeError.

(** [setattr(self, k, v)]: stored in [__dict__], except for the three names
    that [object] and the class keep behind data descriptors. *)
Definition setattr (self : Instance) (k : string) (v : Attr) : PyError + Instance :=
  if (String.eqb k "__class__" || String.eqb k "__dict__")%bool then inl TypeError
  else if String.eqb k "__weakref__" then inl AttributeError
  else inr (<[k := v]> self).

(** How a call ends. *)
Inductive Outcome :=
| Returned (e : Emitted)      (* returned [None]; what was logged meanwhile *)
| Raised (err : PyError)
| Builtin.                    (* an interpreter-level attribute was reached *)

(* ===================================================================== *)
(** ** The methods of [RichLogger] *)
(* ===================================================================== *)

(** [RichLogger.log(self, message, label, level, color)]. *)
Definition RichLogger_log (self : Instance) (message label : string) (lv : Z)
    (col : string) (active : option Exc) (w : World) : Outcome :=
  let rich_label := "[" +:+ col +:+ "]" +:+ PyStr.ljust label 8 +:+ "[/]" in
  match getattr self "logger" with
  | FoundInst (ALogger r) =>
      Returned (Logger_log r lv (rich_label +:+ " " +:+ message)
                  (String.eqb (PyStr.upper label) "DEBUG") active (logging w))
  | FoundInst (AConsole _) => Raised TypeError      (* [Console.log] takes no [exc_info] *)
  | FoundInst (ALogMethod _) => Raised AttributeError (* a method has no [log] *)
  | _ => Raised AttributeError
  end.

(** The body of the generated [log_method(self, message, props)]:
    [self.log(message, props["label"], color=..., level=...)]. *)
Definition log_method (self : Instance) (message : string) (props : Descriptor)
    (active : option Exc) (w : World) : Outcome :=
  match getattr self "log" with
  | FoundClass CLog =>
      RichLogger_log self message (label props) (level props) (color props) active w
  | FoundInst (ALogMethod _) => Raised TypeError  (* no keyword [color] *)
  | FoundInst _ => Raised TypeError               (* not callable *)
  | _ => Raised AttributeError
  end.

(** The loop of [_attach_log_methods] over the items of the table. *)
Fixpoint attach_loop (items : CategoryTable) (self : Instance)
  : option PyError * Instance :=
  match items with
  | [] => (None, self)
  | (method_name, properties) :: rest =>
      match setattr self method_name (ALogMethod properties) with
      | inl err => (Some err, self)
      | inr self' => attach_loop rest self'
      end
  end.

(** [RichLogger._attach_log_methods(self)]. *)
Definition attach_log_methods (self : Instance) (w : World)
  : option PyError * Instance :=
  match getattr self "LOG_CATEGORIES" with
  | FoundClass CTable => attach_loop (class_table w) self
  | FoundInst _ => (Some AttributeError, self)    (* no [items] on it *)
  | _ => (Some AttributeError, self)
  end.

(** The handler [__init__] builds around the instance's console. *)
Definition rich_handler (console : nat) : Handler :=
  mkHandler (RichHandler console true false true true true) NOTSET.

(** [RichLogger.__init__(self, name)]. *)
Definition RichLogger_init (self : Instance) (name : string) (w : World)
  : Outcome * Instance * World :=
  (* self.console = Console() *)
  let c := consoles w in
  let self := <["console" := AConsole c]> self in
  (* self.logger = logging.getLogger(name) *)
  let '(r, L) := getLogger name (logging w) in
  let self := <["logger" := ALogger r]> self in
  (* self.logger.setLevel(logging.DEBUG) *)
  let L := setLevel r DEBUG L in
  (* if not self.logger.handlers: ... *)
  let L :=
    match handlers (logger_at r L) with
    | [] => set_propagate r false (addHandler r (rich_handler c) L)
    | _ :: _ => L
    end in
  let w := mkWorld (class_table w) L (S c) in
  (* self._attach_log_methods() *)
  match getattr self "_attach_log_methods" with
  | FoundClass CAttach =>
      match attach_log_methods self w with
      | (None, self') => (Returned nothing, self', w)
      | (Some err, self') => (Raised err, self', w)
      end
  | FoundInst (ALogMethod _) => (Raised TypeError, self, w)  (* [message] missing *)
  | FoundInst _ => (Raised TypeError, self, w)               (* not callable *)
  | _ => (Raised AttributeError, self, w)
  end.

(** [RichLogger(name)]: a new object, initialised. *)
Definition RichLogger (name : string) (w : World) : Outcome * Instance * World :=
  RichLogger_init ∅ name w.

(** [self.k(message)]: the call of an attribute with one argument, in a
    context where [active] is the exception being handled. *)
Definition invoke (self : Instance) (k : string) (message : string)
    (active : option Exc) (w : World) : Outcome * Instance * World :=
  match getattr self k with
  | FoundInst (ALogMethod props) => (log_method self message props active w, self, w)
  | FoundInst _ => (Raised TypeError, self, w)          (* not callable *)
  | FoundClass CInit => RichLogger_init self message w
  | FoundClass CLog => (Raised TypeError, self, w)      (* [label] missing *)
  | FoundClass CAttach => (Raised TypeError, self, w)   (* one argument too many *)
  | FoundClass CTable => (Raised TypeError, self, w)    (* a dict is not callable *)
  | FoundBuiltin => (Builtin, self, w)
  | NotFound => (Raised AttributeError, self, w)
  end.

(** The interpreter at start-up: the class as shipped, a root logger at
    [WARNING] without handlers, an empty registry. *)
Definition fresh_logging : Logging := mkLogging (mkLogger WARNING [] true) ∅.
Definition startup : World := mkWorld LOG_CATEGORIES fresh_logging 0.

(* ===================================================================== *)
(** ** Reading the specification *)
(* ===================================================================== *)

(** The severities of the specification's data model and the level of the
    [logging] module each one stands for. *)
Inductive Severity := SevDebug | SevInfo | SevWarning | SevError.

Definition severity_level (s : Severity) : Z :=
  match s with
  | SevDebug => DEBUG
  | SevInfo => INFO
  | SevWarning => WARNING
  | SevError => ERROR
  end.

(** The table of recommended defaults, as the specification lists it:
    name, label, colour, severity. *)
Definition recommended_defaults : list (string * (string * string * Severity)) :=
  [ ("read"%string,    ("READ"%string,     "magenta"%string, SevInfo));
    ("write"%string,   ("WRITE"%string,    "magenta"%string, SevInfo));
    ("meta"%string,    ("METADATA"%string, "magenta"%string, SevInfo));
    ("stage"%string,   ("STAGE"%string,    "blue"%string,    SevInfo));
    ("step"%string,    ("STEP"%string,     "blue"%string,    SevInfo));
    ("substep"%string, ("SUB"%string,      "blue"%string,    SevInfo));
    ("info"%string,    ("STATUS"%string,   "blue"%string,    SevInfo));
    ("config"%string,  ("CONFIG"%string,   "cyan"%string,    SevInfo));
    ("metric"%string,  ("METRIC"%string,   "cyan"%string,    SevInfo));
    ("result"%string,  ("RESULT"%string,   "cyan"%string,    SevInfo));
    ("warning"%string, ("WARNING"%string,  "yellow"%string,  SevWarning));
    ("alert"%string,   ("ALERT"%string,    "red"%string,     SevError));
    ("error"%string,   ("ERROR"%string,    "red"%string,     SevError));
    ("check"%string,   ("CHECK"%string,    "green"%string,   SevDebug));
    ("debug"%string,   ("DEBUG"%string,    "green"%string,   SevDebug)) ].

Definition describes (d : Descriptor) (t : string * string * Severity) : Prop :=
  label d = t.1.1 ∧ color d = t.1.2 ∧ level d = severity_level t.2.



(** The logger a name denotes. *)
Definition logger_ref (name : string) : LoggerRef :=
  if (String.eqb name "" || String.eqb name "root")%bool then None else Some name.

(** What [__init__] leaves of a logger it found in state [before]. *)
Definition configured (before : Logger) (console : nat) : Logger :=
  match handlers before with
  | [] => mkLogger DEBUG [rich_handler console] false
  | _ :: _ => mkLogger DEBUG (handlers before) (propagate before)
  end.

(** The names an entry of the table must avoid for the generated methods
    to work: the two attributes the emission path reads from the instance,
    and the three names [setattr] refuses. *)
Definition clashing : list string :=
  [ "log"; "logger"; "__class__"; "__dict__"; "__weakref__" ]%string.

Definition usable_table (t : CategoryTable) : Prop :=
  NoDup (table_keys t) ∧ Forall (λ k, k ∉ clashing) (table_keys t).

(** The text [RichLogger.log] builds. *)
Definition rendered (d : Descriptor) (message : string) : string :=
  ("[" +:+ color d +:+ "]" +:+
     (label d +:+ PyStr.spaces (8 - String.length (label d))) +:+ "[/]")
  +:+ " " +:+ message.

(** A logger that is registered: storing what it holds changes nothing. *)
Definition registered (r : LoggerRef) (L : Logging) : Prop :=
  match r with
  | None => True
  | Some n => is_Some (loggerDict L !! n)
  end.

(** The state [__init__] leaves: the named logger reconfigured, one more
    console made, the class table as it was. *)
Definition after_init (name : string) (w : World) : World :=
  let r := logger_ref name in
  mkWorld (class_table w)
    (logger_put r (configured (logger_at r (logging w)) (consoles w)) (logging w))
    (S (consoles w)).

(** The two attributes [__init__] assigns before the loop. *)
Definition base_attrs (name : string) (console : nat) : Instance :=
  <["logger" := ALogger (logger_ref name)]> (<["console" := AConsole console]> ∅).

(** The attributes of an object built by [RichLogger(name)] in state [w]. *)
Definition built (name : string) (w : World) (f : Instance) : Prop :=
  ∀ k, f !! k =
       match table_get (class_table w) k with
       | Some d => Some (ALogMethod d)
       | None => base_attrs name (consoles w) !! k
       end.

(** The class with one more entry, named [log], and a process started
    with it. *)
Definition table_with_log : CategoryTable :=
  LOG_CATEGORIES ++ [("log"%string, mkDescriptor "LOG" "white" INFO)].

Definition startup_with_log : World := mkWorld table_with_log fresh_logging 0.


(** A process in which other code has already given the logger [app] a
    handler, and the root logger one as well (as [logging.basicConfig]
    does). *)
Definition foreign_app : World :=
  mkWorld LOG_CATEGORIES
    (mkLogging
       (mkLogger WARNING [mkHandler (ForeignHandler 0) NOTSET] true)
       {[ "app"%string := mkLogger NOTSET [mkHandler (ForeignHandler 1) NOTSET] true ]})
    0.

(** The attributes an object has besides the generated methods. *)
Definition own_attributes : list string :=
  [ "console"; "logger"; "LOG_CATEGORIES"; "log"; "_attach_log_methods" ]%string.


(** The names [setattr] does not store: [object] keeps them behind data
    descriptors. *)
Definition refused : list string := [ "__class__"; "__dict__"; "__weakref__" ]%string.

(** The error [setattr] raises for a refused name. *)
Definition refusal (k : string) : PyError :=
  if String.eqb k "__weakref__" then AttributeError else TypeError.

(** A table the loop of [_attach_log_methods] runs through: distinct names,
    none of them refused by [setattr]. *)
Definition storable_table (t : CategoryTable) : Prop :=
  NoDup (table_keys t) ∧ Forall (λ k, k ∉ refused) (table_keys t).


(* ===================================================================== *)
(** ** Facts about strings *)
(* ===================================================================== *)









(* ===================================================================== *)
(** ** Facts about the registry *)
(* ===================================================================== *)

Lemma getLogger_ref (name : string) (L : Logging) :
  (getLogger name L).1 = logger_ref name.
Proof.
  unfold getLogger, logger_ref.
  destruct (_ || _)%bool; [done|]. by destruct (loggerDict L !! name).
Qed.

Lemma logger_at_put (r : LoggerRef) (lg : Logger) (L : Logging) :
  logger_at r (logger_put r lg L) = lg.
Proof. destruct r as [n|]; simpl; [by rewrite lookup_insert_eq | done]. Qed.

Lemma logger_put_put (r : LoggerRef) (a b : Logger) (L : Logging) :
  logger_put r a (logger_put r b L) = logger_put r a L.
Proof. destruct r as [n|]; simpl; [by rewrite insert_insert_eq | done]. Qed.

Lemma getLogger_at (name : string) (L : Logging) :
  logger_at (logger_ref name) (getLogger name L).2
  = logger_at (logger_ref name) L.
Proof.
  unfold getLogger, logger_ref.
  destruct (_ || _)%bool; [done|].
  destruct (loggerDict L !! name) eqn:E; [done|].
  simpl. by rewrite lookup_insert_eq, E.
Qed.

Lemma logger_put_same (r : LoggerRef) (L : Logging) :
  registered r L → logger_put r (logger_at r L) L = L.
Proof.
  destruct r as [n|]; simpl; [|by destruct L].
  intros [lg E]. rewrite E. simpl. rewrite insert_id by done. by destruct L.
Qed.

Lemma registered_put (r : LoggerRef) (lg : Logger) (L : Logging) :
  registered r (logger_put r lg L).
Proof. destruct r as [n|]; simpl; [by rewrite lookup_insert_eq | done]. Qed.

(* ===================================================================== *)
(** ** Facts about dispatch *)
(* ===================================================================== *)

Lemma lineage_head (r : LoggerRef) (L : Logging) :
  ∃ up, lineage r L = logger_at r L :: up.
Proof.
  unfold lineage. destruct r as [n|]; simpl; [|by exists []].
  destruct (String.length n); eauto.
Qed.

Lemma getEffectiveLevel_own (r : LoggerRef) (L : Logging) :
  logger_level (logger_at r L) ≠ 0 →
  getEffectiveLevel r L = logger_level (logger_at r L).
Proof.
  intros Hset. unfold getEffectiveLevel.
  destruct (lineage_head r L) as [up ->]. simpl.
  destruct (Z.eqb_spec (logger_level (logger_at r L)) 0); [done | done].
Qed.



(** A logger that does not propagate and holds one handler hands the
    record to that handler and to nothing else. *)
Lemma callHandlers_single (r : LoggerRef) (rec : LogRecord) (L : Logging)
    (h : Handler) :
  handlers (logger_at r L) = [h] →
  propagate (logger_at r L) = false →
  handler_level h ≤ levelno rec →
  callHandlers r rec L = [(h, rec)].
Proof.
  intros Hh Hp Hle. unfold callHandlers.
  destruct (lineage_head r L) as [up ->]. simpl.
  rewrite Hp, Hh. simpl.
  destruct (Z.leb_spec (handler_level h) (levelno rec)); [done | lia].
Qed.

Lemma isEnabledFor_set (r : LoggerRef) (lv : Z) (L : Logging) :
  0 < logger_level (logger_at r L) →
  isEnabledFor r lv L = Z.leb (logger_level (logger_at r L)) lv.
Proof.
  intros Hpos. unfold isEnabledFor.
  rewrite getEffectiveLevel_own by lia.
  destruct (Z.leb_spec lv 0); [|done].
  symmetry. apply Z.leb_gt. lia.
Qed.

(* ===================================================================== *)
(** ** Facts about the table and the attachment loop *)
(* ===================================================================== *)

Lemma table_get_None (t : CategoryTable) (k : string) :
  table_get t k = None ↔ k ∉ table_keys t.
Proof.
  induction t as [|[k' d] t IH]; simpl.
  - split; [intros _ ?%elem_of_nil; done | done].
  - rewrite not_elem_of_cons. destruct (String.eqb_spec k' k) as [->|Hne].
    + split; [done | by intros [? _]].
    + rewrite IH. split; [by intros ? | by intros [_ ?]].
Qed.

Lemma table_get_Some (t : CategoryTable) (k : string) (d : Descriptor) :
  table_get t k = Some d → (k, d) ∈ t.
Proof.
  induction t as [|[k' d'] t IH]; simpl; [done|].
  destruct (String.eqb_spec k' k) as [->|Hne].
  - intros [= ->]. left.
  - intros ?. right. by apply IH.
Qed.

Lemma table_get_key (t : CategoryTable) (k : string) (d : Descriptor) :
  table_get t k = Some d → k ∈ table_keys t.
Proof.
  intros H%table_get_Some. unfold table_keys.
  apply list_elem_of_fmap. by exists (k, d).
Qed.

Lemma setattr_stores (self : Instance) (k : string) (v : Attr) :
  k ∉ clashing → setattr self k v = inr (<[k := v]> self).
Proof.
  intros Hk. unfold setattr, clashing in *.
  destruct (String.eqb_spec k "__class__") as [->|_]; [set_solver|].
  destruct (String.eqb_spec k "__dict__") as [->|_]; [set_solver|].
  destruct (String.eqb_spec k "__weakref__") as [->|_]; [set_solver|].
  done.
Qed.

(** Over a table whose names are distinct and storable, the loop ends
    normally and leaves under each name the method closed over that name's
    own descriptor; every other attribute is as before. *)
Lemma attach_loop_lookup (t : CategoryTable) :
  usable_table t →
  ∀ self, ∃ self',
    attach_loop t self = (None, self') ∧
    ∀ k, self' !! k =
         match table_get t k with
         | Some d => Some (ALogMethod d)
         | None => self !! k
         end.
Proof.
  unfold usable_table. induction t as [|[k0 d0] t IH]; intros [Hnd Hok] self.
  - exists self. done.
  - simpl in *. apply NoDup_cons in Hnd as [Hk0 Hnd].
    apply Forall_cons in Hok as [Hok0 Hok].
    rewrite setattr_stores by done.
    destruct (IH (conj Hnd Hok) (<[k0 := ALogMethod d0]> self))
      as (self' & -> & Hlook).
    exists self'. split; [done|]. intros k. rewrite Hlook.
    destruct (String.eqb_spec k0 k) as [->|Hne].
    + apply table_get_None in Hk0. rewrite Hk0. by rewrite lookup_insert_eq.
    + destruct (table_get t k); [done|]. by rewrite lookup_insert_ne.
Qed.

(** When the loop ends normally, every name of the table holds one of the
    generated methods. *)
Lemma attach_loop_bound (t : CategoryTable) :
  ∀ self self', attach_loop t self = (None, self') →
    (∀ k, k ∈ table_keys t → ∃ d, self' !! k = Some (ALogMethod d)) ∧
    (∀ k d, self !! k = Some (ALogMethod d) → ∃ d', self' !! k = Some (ALogMethod d')).
Proof.
  induction t as [|[k0 d0] t IH]; intros self self'; simpl.
  - intros [= <-]. split; [by intros k ?%elem_of_nil | eauto].
  - destruct (setattr self k0 (ALogMethod d0)) as [err|self1] eqn:Es; [done|].
    intros Hloop. destruct (IH _ _ Hloop) as [Hkeys Hkeep].
    assert (self1 = <[k0 := ALogMethod d0]> self) as ->.
    { unfold setattr in Es. repeat case_match; congruence. }
    split.
    + intros k [Hk|Hk]%elem_of_cons; [|by apply Hkeys].
      subst k. apply (Hkeep k0 d0). by rewrite lookup_insert_eq.
    + intros k d Hk. destruct (decide (k0 = k)) as [->|Hne].
      * apply (Hkeep k d0). by rewrite lookup_insert_eq.
      * apply (Hkeep k d). by rewrite lookup_insert_ne.
Qed.

(* ===================================================================== *)
(** ** What [__init__] does to the process state *)
(* ===================================================================== *)

Lemma init_logging_steps (name : string) (c : nat) (L : Logging) :
  let r := logger_ref name in
  let L1 := setLevel r DEBUG (getLogger name L).2 in
  match handlers (logger_at r L1) with
  | [] => set_propagate r false (addHandler r (rich_handler c) L1)
  | _ :: _ => L1
  end = logger_put r (configured (logger_at r L) c) L.
Proof.
  intros r L1.
  assert (logger_at r L1
          = mkLogger DEBUG (handlers (logger_at r L)) (propagate (logger_at r L)))
    as Hat.
  { unfold L1, setLevel. rewrite logger_at_put. unfold r. by rewrite getLogger_at. }
  assert (∀ lg, logger_put r lg L1 = logger_put r lg L) as Hput.
  { intros lg. unfold L1, setLevel. rewrite logger_put_put.
    unfold getLogger. fold (logger_ref name). unfold logger_ref, r, logger_ref.
    destruct (_ || _)%bool; [done|].
    destruct (loggerDict L !! name); [done|]. simpl.
    by rewrite insert_insert_eq. }
  unfold configured. rewrite Hat. simpl.
  destruct (handlers (logger_at r L)) as [|h hs] eqn:Eh.
  - unfold set_propagate, addHandler. rewrite !logger_at_put, logger_put_put.
    rewrite Hat. simpl. apply Hput.
  - rewrite <- (Hput (mkLogger DEBUG (h :: hs) (propagate (logger_at r L)))).
    rewrite <- Hat. symmetry. apply logger_put_same.
    unfold L1, setLevel. apply registered_put.
Qed.

Lemma RichLogger_init_world (self : Instance) (name : string) (w : World) :
  (RichLogger_init self name w).2 = after_init name w.
Proof.
  unfold RichLogger_init, after_init.
  pose proof (getLogger_ref name (logging w)) as Hr.
  pose proof (init_logging_steps name (consoles w) (logging w)) as Hs.
  destruct (getLogger name (logging w)) as [r L'] eqn:E.
  simpl in Hr, Hs. subst r. rewrite Hs.
  repeat case_match; done.
Qed.

(** With a usable table the constructor returns normally, and the new
    object holds, under each name of the table, the method closed over
    that name's descriptor, next to [console] and [logger]. *)
Lemma RichLogger_usable (name : string) (w : World) :
  usable_table (class_table w) →
  ∃ f, RichLogger name w = (Returned nothing, f, after_init name w) ∧
       ∀ k, f !! k =
            match table_get (class_table w) k with
            | Some d => Some (ALogMethod d)
            | None => base_attrs name (consoles w) !! k
            end.
Proof.
  intros Hu.
  pose proof (RichLogger_init_world ∅ name w) as Hw.
  unfold RichLogger. unfold RichLogger_init in *.
  pose proof (getLogger_ref name (logging w)) as Hr.
  destruct (getLogger name (logging w)) as [r L'] eqn:E. simpl in Hr. subst r.
  fold (base_attrs name (consoles w)) in *.
  assert (getattr (base_attrs name (consoles w)) "_attach_log_methods"
          = FoundClass CAttach) as Ha.
  { unfold getattr, base_attrs. by rewrite !lookup_insert_ne, lookup_empty by done. }
  rewrite Ha in *. unfold attach_log_methods in *.
  assert (getattr (base_attrs name (consoles w)) "LOG_CATEGORIES"
          = FoundClass CTable) as Ht.
  { unfold getattr, base_attrs. by rewrite !lookup_insert_ne, lookup_empty by done. }
  rewrite Ht in *. cbn [class_table] in *.
  destruct (attach_loop_lookup (class_table w) Hu (base_attrs name (consoles w)))
    as (f & Hloop & Hlook).
  rewrite Hloop in *. simpl in Hw. exists f. by rewrite Hw.
Qed.

(* ===================================================================== *)
(** ** The shipped table and calls on a constructed object *)
(* ===================================================================== *)

Lemma usable_shipped : usable_table LOG_CATEGORIES.
Proof.
  apply (bool_decide_unpack _). by vm_compute.
Qed.

Lemma shipped_levels (c : string) (d : Descriptor) :
  table_get LOG_CATEGORIES c = Some d → DEBUG ≤ level d.
Proof.
  intros H%table_get_Some. revert c d H.
  assert (Forall (λ e : string * Descriptor, DEBUG ≤ level e.2) LOG_CATEGORIES) as HF.
  { apply (bool_decide_unpack _). by vm_compute. }
  intros c d H. by apply (proj1 (Forall_forall _ _) HF (c, d)).
Qed.

Lemma after_init_logger (name : string) (w : World) :
  logger_at (logger_ref name) (logging (after_init name w))
  = configured (logger_at (logger_ref name) (logging w)) (consoles w).
Proof. unfold after_init. simpl. apply logger_at_put. Qed.

Lemma configured_level (before : Logger) (c : nat) :
  logger_level (configured before c) = DEBUG.
Proof. unfold configured. by destruct (handlers before). Qed.

(** A generated method passes its own descriptor to [RichLogger.log],
    which passes the formatted text to [Logger.log]. *)
Lemma invoke_built (name : string) (w : World) (f : Instance)
    (c : string) (d : Descriptor) (message : string) (active : option Exc)
    (w' : World) :
  usable_table (class_table w) →
  built name w f →
  table_get (class_table w) c = Some d →
  invoke f c message active w'
  = (RichLogger_log f message (label d) (level d) (color d) active w', f, w')
  ∧ RichLogger_log f message (label d) (level d) (color d) active w'
    = Returned (Logger_log (logger_ref name) (level d) (rendered d message)
                  (String.eqb (PyStr.upper (label d)) "DEBUG") active (logging w')).
Proof.
  intros [_ Hok] Hb Hc.
  assert (∀ k, k ∈ clashing → table_get (class_table w) k = None) as Hfree.
  { intros k Hk. apply table_get_None. intros Hin.
    by apply (proj1 (Forall_forall _ _) Hok k Hin). }
  assert (getattr f "log" = FoundClass CLog) as Hlog.
  { unfold getattr. rewrite Hb, Hfree by (unfold clashing; set_solver).
    unfold base_attrs. by rewrite !lookup_insert_ne, lookup_empty by done. }
  assert (getattr f "logger" = FoundInst (ALogger (logger_ref name))) as Hlogger.
  { unfold getattr. rewrite Hb, Hfree by (unfold clashing; set_solver).
    unfold base_attrs. by rewrite lookup_insert_eq. }
  split.
  - unfold invoke, getattr. rewrite Hb, Hc. unfold log_method. by rewrite Hlog.
  - unfold RichLogger_log. by rewrite Hlogger.
Qed.


(** When the logger had no handler, the record reaches the handler that
    [__init__] attached, once, and nothing else. *)
Lemma callHandlers_after_init (name : string) (w : World) (rec : LogRecord) :
  handlers (logger_at (logger_ref name) (logging w)) = [] →
  0 ≤ levelno rec →
  callHandlers (logger_ref name) rec (logging (after_init name w))
  = [(rich_handler (consoles w), rec)].
Proof.
  intros Hnone Hlv. apply callHandlers_single.
  - rewrite after_init_logger. unfold configured. by rewrite Hnone.
  - rewrite after_init_logger. unfold configured. by rewrite Hnone.
  - done.
Qed.

(* ===================================================================== *)
(** ** Properties of the constructed object *)
(* ===================================================================== *)

Section Shipped.

(** The class as shipped: nobody has edited [LOG_CATEGORIES]. *)
Variable w : World.
Hypothesis Hshipped : class_table w = LOG_CATEGORIES.

Lemma shipped_usable : usable_table (class_table w).
Proof. rewrite Hshipped. apply usable_shipped. Qed.


End Shipped.



Ltac split_members H :=
  repeat (apply elem_of_cons in H as [H|H]); [..|by apply elem_of_nil in H].

(** C2. The table holds exactly the fifteen categories of the
    specification's list of recommended defaults, in that order, each with
    the label, colour and severity given there. *)
Theorem C2_table_is_the_recommended_defaults :
  length LOG_CATEGORIES = 15%nat ∧
  NoDup (table_keys LOG_CATEGORIES) ∧
  table_keys LOG_CATEGORIES = recommended_defaults.*1 ∧
  ∀ c lbl col sev,
    (∃ d, table_get LOG_CATEGORIES c = Some d ∧ describes d (lbl, col, sev))
    ↔ (c, (lbl, col, sev)) ∈ recommended_defaults.
Proof.
  split; [reflexivity|]. split; [apply usable_shipped|]. split; [reflexivity|].
  intros c lbl col sev. split.
  - intros (d & Hget%table_get_Some & Hl & Hc & Hs). simpl in Hl, Hc, Hs.
    unfold LOG_CATEGORIES in Hget. split_members Hget;
      injection Hget as -> ->; simpl in *; subst lbl col;
      destruct sev; try discriminate Hs;
      unfold recommended_defaults; set_solver.
  - intros Hin. unfold recommended_defaults in Hin. split_members Hin;
      injection Hin as -> -> -> ->;
      (eexists; split; [reflexivity | by repeat split]).
Qed.







(** A logger that [__init__] has configured is left as it is by a second
    [__init__]: it has a handler by then. *)
Lemma configured_twice (before : Logger) (c c' : nat) :
  configured (configured before c) c' = configured before c.
Proof. unfold configured. by destruct (handlers before). Qed.

Lemma after_init_twice (name : string) (w : World) :
  logging (after_init name (after_init name w)) = logging (after_init name w).
Proof.
  unfold after_init. cbn [logging consoles class_table].
  by rewrite logger_at_put, configured_twice, logger_put_put.
Qed.



(* ===================================================================== *)
(** ** Tables that were edited, names outside the table *)
(* ===================================================================== *)

(** The loop leaves every name outside the table as it found it. *)
Lemma attach_loop_other (t : CategoryTable) :
  ∀ self self', attach_loop t self = (None, self') →
    ∀ k, k ∉ table_keys t → self' !! k = self !! k.
Proof.
  induction t as [|[k0 d0] t IH]; intros self self'; simpl.
  - by intros [= <-].
  - destruct (setattr self k0 (ALogMethod d0)) as [err|self1] eqn:Es; [done|].
    intros Hloop k [Hne Hk]%not_elem_of_cons.
    assert (self1 = <[k0 := ALogMethod d0]> self) as ->.
    { unfold setattr in Es. repeat case_match; congruence. }
    rewrite (IH _ _ Hloop k Hk). by rewrite lookup_insert_ne.
Qed.

(** A construction that returned went through the loop to its end. *)
Lemma RichLogger_returned (name : string) (w : World) (f : Instance) (w1 : World) :
  RichLogger name w = (Returned nothing, f, w1) →
  w1 = after_init name w ∧
  attach_loop (class_table w) (base_attrs name (consoles w)) = (None, f).
Proof.
  intros Hnew. pose proof (RichLogger_init_world ∅ name w) as Hw.
  fold (RichLogger name w) in Hw. rewrite Hnew in Hw. simpl in Hw.
  split; [done|].
  unfold RichLogger, RichLogger_init in Hnew.
  pose proof (getLogger_ref name (logging w)) as Hr.
  destruct (getLogger name (logging w)) as [r L'] eqn:E. simpl in Hr. subst r.
  fold (base_attrs name (consoles w)) in Hnew.
  assert (getattr (base_attrs name (consoles w)) "_attach_log_methods"
          = FoundClass CAttach) as Ha.
  { unfold getattr, base_attrs. by rewrite !lookup_insert_ne, lookup_empty by done. }
  rewrite Ha in Hnew. unfold attach_log_methods in Hnew.
  assert (getattr (base_attrs name (consoles w)) "LOG_CATEGORIES"
          = FoundClass CTable) as Ht.
  { unfold getattr, base_attrs. by rewrite !lookup_insert_ne, lookup_empty by done. }
  rewrite Ht in Hnew. cbn [class_table] in Hnew.
  destruct (attach_loop (class_table w) (base_attrs name (consoles w)))
    as [[err|] f'] eqn:El; [by injection Hnew|].
  by injection Hnew as ->.
Qed.

(** A call of a generated method returns the object and the process state
    it was given. *)
Lemma invoke_method_frame (self : Instance) (k : string) (props : Descriptor)
    (message : string) (active : option Exc) (w : World) :
  self !! k = Some (ALogMethod props) →
  invoke self k message active w = (log_method self message props active w, self, w).
Proof. intros Hk. unfold invoke, getattr. by rewrite Hk. Qed.




(** C7. After [RichLogger(name)] the named logger's level is [DEBUG], the
    lowest of the named levels; every category of the table has a level at
    or above it and passes [isEnabledFor]; and the handler the constructor
    attaches has level [NOTSET], below every category's level, so it lets
    each of their records through. *)
Theorem C7_constructor_filters_no_category (w : World) (name : string) :
  let w' := (RichLogger name w).2 in
  let r := logger_ref name in
  logger_level (logger_at r (logging w')) = DEBUG ∧
  getEffectiveLevel r (logging w') = DEBUG ∧
  (∀ c d, table_get LOG_CATEGORIES c = Some d →
     logger_level (logger_at r (logging w')) ≤ level d ∧
     isEnabledFor r (level d) (logging w') = true) ∧
  (handlers (logger_at r (logging w)) = [] →
   handlers (logger_at r (logging w')) = [rich_handler (consoles w)] ∧
   handler_level (rich_handler (consoles w)) = NOTSET ∧
   (∀ lv, 0 ≤ lv → Z.leb (handler_level (rich_handler (consoles w))) lv = true) ∧
   ∀ c d, table_get LOG_CATEGORIES c = Some d →
     Z.leb (handler_level (rich_handler (consoles w))) (level d) = true).
Proof.
  cbv zeta. unfold RichLogger. rewrite RichLogger_init_world.
  assert (logger_level (logger_at (logger_ref name) (logging (after_init name w)))
          = DEBUG) as Hlevel.
  { by rewrite after_init_logger, configured_level. }
  split; [done|]. split.
  { rewrite getEffectiveLevel_own; rewrite Hlevel; done. }
  split.
  { intros c d Hc. pose proof (shipped_levels c d Hc) as Hlv.
    rewrite isEnabledFor_set; rewrite Hlevel; [|done]. split; [done|].
    by apply Z.leb_le. }
  intros Hnone. split.
  { rewrite after_init_logger. unfold configured. by rewrite Hnone. }
  split; [done|]. split.
  { intros lv Hlv. by apply Z.leb_le. }
  intros c d Hc. pose proof (shipped_levels c d Hc) as Hlv.
  apply Z.leb_le. simpl. unfold NOTSET, DEBUG in *. lia.
Qed.

Lemma C7_witness :
  handlers (logger_at (logger_ref "demo") (logging (RichLogger "demo" startup).2))
  = [rich_handler 0] ∧
  logger_level (logger_at (logger_ref "demo") (logging (RichLogger "demo" startup).2))
  ≤ level (mkDescriptor "CHECK" "green" DEBUG) ∧
  isEnabledFor (logger_ref "demo") DEBUG (logging (RichLogger "demo" startup).2) = true ∧
  Z.leb (handler_level (rich_handler 0)) DEBUG = true.
Proof.
  destruct (C7_constructor_filters_no_category startup "demo")
    as (_ & _ & Hcat & Hh).
  destruct (Hh eq_refl) as (Hhs & _ & _ & Hpass).
  destruct (Hcat "check"%string (mkDescriptor "CHECK" "green" DEBUG) eq_refl)
    as [Hle Hen].
  split; [exact Hhs|]. split; [exact Hle|]. split; [exact Hen|].
  exact (Hpass "check"%string (mkDescriptor "CHECK" "green" DEBUG) eq_refl).
Defined.

(** C8, as stated, fails for a logger that already has a handler: the
    constructor leaves its propagate flag on, and a record is handled by
    the logger's handler and again by the root's. *)
Lemma C8_logger_with_handlers_keeps_propagating :
  let '(made, f, w) := RichLogger "app" foreign_app in
  made = Returned nothing ∧
  propagate (logger_at (logger_ref "app") (logging w)) = true ∧
  (invoke f "info" "Validation done" None w).1.1
  = Returned
      (mkEmitted
         [mkRecord "app" INFO "[blue]STATUS  [/] Validation done" None]
         [(mkHandler (ForeignHandler 1) NOTSET,
           mkRecord "app" INFO "[blue]STATUS  [/] Validation done" None);
          (mkHandler (ForeignHandler 0) NOTSET,
           mkRecord "app" INFO "[blue]STATUS  [/] Validation done" None)]).
Proof. vm_compute. done. Qed.

(** C8, amended. When the named logger has no handler as the constructor
    runs (a name not used before, or a logger left without handlers),
    propagation is switched off and every record of level 0 or more is
    handled exactly once, by the constructor's [RichHandler].  When the
    logger already has handlers the constructor leaves the handler list
    and the propagate flag as they were. *)
Theorem C8_propagation_off_when_handler_is_attached (w : World) (name : string) :
  let w' := (RichLogger name w).2 in
  let r := logger_ref name in
  (handlers (logger_at r (logging w)) = [] →
   propagate (logger_at r (logging w')) = false ∧
   ∀ rec, 0 ≤ levelno rec →
     callHandlers r rec (logging w') = [(rich_handler (consoles w), rec)]) ∧
  (handlers (logger_at r (logging w)) ≠ [] →
   propagate (logger_at r (logging w')) = propagate (logger_at r (logging w)) ∧
   handlers (logger_at r (logging w')) = handlers (logger_at r (logging w))).
Proof.
  cbv zeta. unfold RichLogger. rewrite RichLogger_init_world.
  rewrite after_init_logger. unfold configured. split.
  - intros Hnone. rewrite Hnone. split; [done|].
    intros rec Hlv. by apply callHandlers_after_init.
  - intros Hsome. by destruct (handlers (logger_at (logger_ref name) (logging w))).
Qed.

Lemma C8_witness :
  (propagate (logger_at (logger_ref "demo") (logging (RichLogger "demo" startup).2))
   = false ∧
   callHandlers (logger_ref "demo") (mkRecord "demo" INFO "x" None)
     (logging (RichLogger "demo" startup).2)
   = [(rich_handler 0, mkRecord "demo" INFO "x" None)]) ∧
  (propagate (logger_at (logger_ref "app") (logging (RichLogger "app" foreign_app).2))
   = true ∧
   handlers (logger_at (logger_ref "app") (logging (RichLogger "app" foreign_app).2))
   = [mkHandler (ForeignHandler 1) NOTSET]).
Proof.
  split.
  - destruct (C8_propagation_off_when_handler_is_attached startup "demo")
      as [Hoff _].
    destruct (Hoff eq_refl) as [Hp Honce]. split; [exact Hp|].
    apply Honce. simpl. unfold INFO. lia.
  - destruct (C8_propagation_off_when_handler_is_attached foreign_app "app")
      as [_ Hkeep].
    apply Hkeep. vm_compute. discriminate.
Defined.

(** C9, as stated, fails for names that are absent from the table but are
    attributes of the object all the same: [__init__] called with one
    argument returns normally, and [log] called with one argument raises
    [TypeError], not the error of an unknown name. *)
Lemma C9_absent_names_that_are_attributes :
  table_get LOG_CATEGORIES "__init__" = None ∧
  table_get LOG_CATEGORIES "log" = None ∧
  let '(made, f, w) := RichLogger "demo" startup in
  made = Returned nothing ∧
  (invoke f "__init__" "other" None w).1.1 = Returned nothing ∧
  (invoke f "log" "hello" None w).1.1 = Raised TypeError.
Proof. split; [reflexivity|]. split; [reflexivity|]. vm_compute. done. Qed.

(** C9, amended. On a constructed object, a name that is not in the table,
    is not one of the object's own attributes ([console], [logger],
    [LOG_CATEGORIES], [log], [_attach_log_methods]) and is not of the
    form [__x__] raises [AttributeError] when called; no record is made
    and the object and the process state are as before. *)
Theorem C9_unknown_name_raises_AttributeError
    (w : World) (name k message : string) (active : option Exc)
    (f : Instance) (w1 : World) :
  RichLogger name w = (Returned nothing, f, w1) →
  table_get (class_table w) k = None →
  k ∉ own_attributes →
  is_dunder k = false →
  ∀ w', invoke f k message active w' = (Raised AttributeError, f, w').
Proof.
  intros Hnew Hk Hown Hd w'.
  destruct (RichLogger_returned name w f w1 Hnew) as [_ Hloop].
  apply table_get_None in Hk.
  pose proof (attach_loop_other _ _ _ Hloop k Hk) as Hf.
  unfold own_attributes in Hown.
  repeat (apply not_elem_of_cons in Hown as [? Hown]).
  unfold base_attrs in Hf. rewrite !lookup_insert_ne, lookup_empty in Hf by done.
  unfold invoke, getattr. rewrite Hf.
  assert (class_attr k = None) as ->; [|by rewrite Hd].
  unfold class_attr.
  destruct (String.eqb_spec k "LOG_CATEGORIES"); [done|].
  destruct (String.eqb_spec k "__init__") as [->|]; [done|].
  destruct (String.eqb_spec k "log"); [done|].
  by destruct (String.eqb_spec k "_attach_log_methods").
Qed.

Lemma C9_witness :
  invoke (RichLogger "demo" startup).1.2 "verbose" "details" None
    (RichLogger "demo" startup).2
  = (Raised AttributeError, (RichLogger "demo" startup).1.2,
     (RichLogger "demo" startup).2).
Proof.
  apply (C9_unknown_name_raises_AttributeError startup "demo" "verbose" "details"
           None (RichLogger "demo" startup).1.2 (RichLogger "demo" startup).2).
  - vm_compute. reflexivity.
  - reflexivity.
  - apply (bool_decide_unpack _). vm_compute. reflexivity.
  - reflexivity.
Defined.

(** C10. A call of a category operation on a constructed object returns
    the object and the process state it was given: the instance's
    attributes, the class table, every logger's level, handlers and
    propagate flag, and the count of consoles are unchanged, whatever the
    call's outcome. *)
Theorem C10_category_call_changes_nothing
    (w : World) (name c message : string) (d : Descriptor) (active : option Exc)
    (f : Instance) (w1 : World) :
  RichLogger name w = (Returned nothing, f, w1) →
  table_get (class_table w) c = Some d →
  ∀ w',
    let res := invoke f c message active w' in
    res.1.2 = f ∧
    res.2 = w' ∧
    class_table res.2 = class_table w' ∧
    consoles res.2 = consoles w' ∧
    ∀ r, logger_level (logger_at r (logging res.2)) = logger_level (logger_at r (logging w')) ∧
         handlers (logger_at r (logging res.2)) = handlers (logger_at r (logging w')) ∧
         propagate (logger_at r (logging res.2)) = propagate (logger_at r (logging w')).
Proof.
  intros Hnew Hc w'.
  destruct (RichLogger_returned name w f w1 Hnew) as [_ Hloop].
  destruct (attach_loop_bound _ _ _ Hloop) as [Hkeys _].
  destruct (Hkeys c (table_get_key _ _ _ Hc)) as [d' Hf].
  cbv zeta. rewrite (invoke_method_frame f c d' message active w' Hf).
  done.
Qed.

Lemma C10_witness :
  let f := (RichLogger "demo" startup).1.2 in
  let w := (RichLogger "demo" startup).2 in
  (invoke f "error" "Failure: division by zero" (Some "ZeroDivisionError"%string) w).1.2 = f ∧
  (invoke f "error" "Failure: division by zero" (Some "ZeroDivisionError"%string) w).2 = w.
Proof.
  intros f w.
  destruct (C10_category_call_changes_nothing startup "demo" "error"
              "Failure: division by zero" (mkDescriptor "ERROR" "red" ERROR)
              (Some "ZeroDivisionError"%string) f w) with (w' := w)
    as (Hf & Hw & _).
  - vm_compute. reflexivity.
  - reflexivity.
  - split; [exact Hf | exact Hw].
Defined.

(** By contrast, a call that is not a category operation can change the
    state: [__init__] called again makes a console and registers a logger. *)
Example init_call_changes_state :
  let '(_, f, w) := RichLogger "demo" startup in
  consoles (invoke f "__init__" "other" None w).2 = S (consoles w) ∧
  loggerDict (logging w) !! "other" = None ∧
  loggerDict (logging (invoke f "__init__" "other" None w).2) !! "other"
  = Some (mkLogger DEBUG [rich_handler 1] false).
Proof. vm_compute. done. Qed.

(* ===================================================================== *)
(** ** Further properties of [RichLogger.log] *)
(* ===================================================================== *)






(* ===================================================================== *)
(** ** Further properties of [RichLogger.__init__] *)
(* ===================================================================== *)

Lemma logger_at_put_other (r r' : LoggerRef) (lg : Logger) (L : Logging) :
  r' ≠ r → logger_at r' (logger_put r lg L) = logger_at r' L.
Proof.
  intros Hne. destruct r as [n|], r' as [n'|]; simpl; try done.
  rewrite lookup_insert_ne; [done | congruence].
Qed.

Lemma registered_put_other (r r' : LoggerRef) (lg : Logger) (L : Logging) :
  r' ≠ r → registered r' (logger_put r lg L) ↔ registered r' L.
Proof.
  intros Hne. destruct r as [n|], r' as [n'|]; simpl; try done.
  rewrite lookup_insert_ne; [done | congruence].
Qed.



(** The constructor never removes or reorders the handlers of the logger
    it is given: the list afterwards is the list before, followed by one
    [RichHandler] exactly when the list before was empty.  So the logger is
    registered and has a handler after every construction. *)
Theorem constructor_keeps_the_handlers_it_finds (w : World) (name : string) :
  let r := logger_ref name in
  let before := handlers (logger_at r (logging w)) in
  let after := handlers (logger_at r (logging (RichLogger name w).2)) in
  after = before ++ (if decide (before = []) then [rich_handler (consoles w)] else []) ∧
  after ≠ [] ∧
  (length after = Nat.max 1 (length before)) ∧
  registered r (logging (RichLogger name w).2).
Proof.
  cbv zeta. unfold RichLogger. rewrite RichLogger_init_world, after_init_logger.
  unfold configured.
  destruct (handlers (logger_at (logger_ref name) (logging w))) as [|h hs] eqn:E;
    cbn [handlers].
  - split; [done|]. split; [done|]. split; [done|].
    unfold after_init. apply registered_put.
  - rewrite decide_False by done. rewrite app_nil_r.
    split; [done|]. split; [done|]. split; [simpl; lia|].
    unfold after_init. apply registered_put.
Qed.

(** The constructor changes one logger only: every logger other than the
    named one keeps its level, handlers and propagate flag and stays
    registered or unregistered as it was; the class table is not written,
    and one console is made, whether or not a handler is attached. *)
Theorem constructor_touches_only_the_named_logger
    (w : World) (name : string) (r' : LoggerRef) :
  r' ≠ logger_ref name →
  logger_at r' (logging (RichLogger name w).2) = logger_at r' (logging w) ∧
  (registered r' (logging (RichLogger name w).2) ↔ registered r' (logging w)) ∧
  class_table (RichLogger name w).2 = class_table w ∧
  consoles (RichLogger name w).2 = S (consoles w).
Proof.
  intros Hne. unfold RichLogger. rewrite RichLogger_init_world.
  unfold after_init. cbn [logging class_table consoles].
  split; [by apply logger_at_put_other|]. split; [by apply registered_put_other|].
  done.
Qed.

Lemma constructor_touches_only_the_named_logger_witness :
  logger_at (Some "app"%string) (logging (RichLogger "demo" foreign_app).2)
  = mkLogger NOTSET [mkHandler (ForeignHandler 1) NOTSET] true ∧
  (registered (Some "app"%string) (logging (RichLogger "demo" foreign_app).2)
   ↔ registered (Some "app"%string) (logging foreign_app)) ∧
  class_table (RichLogger "demo" foreign_app).2 = LOG_CATEGORIES ∧
  consoles (RichLogger "demo" foreign_app).2 = 1%nat.
Proof.
  apply (constructor_touches_only_the_named_logger foreign_app "demo"
           (Some "app"%string)).
  vm_compute. discriminate.
Defined.

(** [__init__] on an object that does not shadow the two class attributes
    it looks up: the outcome is the outcome of the loop. *)
Lemma RichLogger_init_unfold (self : Instance) (name : string) (w : World) :
  self !! "_attach_log_methods" = None →
  self !! "LOG_CATEGORIES" = None →
  RichLogger_init self name w
  = match attach_loop (class_table w)
            (<["logger" := ALogger (logger_ref name)]>
               (<["console" := AConsole (consoles w)]> self)) with
    | (None, f) => (Returned nothing, f, after_init name w)
    | (Some err, f) => (Raised err, f, after_init name w)
    end.
Proof.
  intros Ha Ht. pose proof (RichLogger_init_world self name w) as Hw.
  unfold RichLogger_init in *.
  pose proof (getLogger_ref name (logging w)) as Hr.
  destruct (getLogger name (logging w)) as [r L'] eqn:E. simpl in Hr. subst r.
  set (self1 := <["logger" := ALogger (logger_ref name)]>
                  (<["console" := AConsole (consoles w)]> self)) in *.
  assert (getattr self1 "_attach_log_methods" = FoundClass CAttach) as Ha1.
  { unfold getattr, self1. by rewrite !lookup_insert_ne, Ha by done. }
  assert (getattr self1 "LOG_CATEGORIES" = FoundClass CTable) as Ht1.
  { unfold getattr, self1. by rewrite !lookup_insert_ne, Ht by done. }
  rewrite Ha1 in *. unfold attach_log_methods in *. rewrite Ht1 in *.
  cbn [class_table] in *.
  destruct (attach_loop (class_table w) self1) as [[err|] f]; simpl in Hw;
    by rewrite Hw.
Qed.

Lemma RichLogger_unfold (name : string) (w : World) :
  RichLogger name w
  = match attach_loop (class_table w) (base_attrs name (consoles w)) with
    | (None, f) => (Returned nothing, f, after_init name w)
    | (Some err, f) => (Raised err, f, after_init name w)
    end.
Proof. unfold RichLogger. by rewrite RichLogger_init_unfold. Qed.

Lemma setattr_storable (self : Instance) (k : string) (v : Attr) :
  k ∉ refused → setattr self k v = inr (<[k := v]> self).
Proof.
  intros Hk. unfold setattr, refused in *.
  destruct (String.eqb_spec k "__class__") as [->|_]; [set_solver|].
  destruct (String.eqb_spec k "__dict__") as [->|_]; [set_solver|].
  destruct (String.eqb_spec k "__weakref__") as [->|_]; [set_solver|].
  done.
Qed.

Lemma setattr_refused (self : Instance) (k : string) (v : Attr) :
  k ∈ refused → setattr self k v = inl (refusal k).
Proof.
  unfold refused. rewrite !elem_of_cons, elem_of_nil.
  intros [->|[->|[->|[]]]]; reflexivity.
Qed.

Lemma attach_loop_app (t1 t2 : CategoryTable) :
  ∀ self, attach_loop (t1 ++ t2) self
          = match attach_loop t1 self with
            | (None, self1) => attach_loop t2 self1
            | (Some err, self1) => (Some err, self1)
            end.
Proof.
  induction t1 as [|[k d] t1 IH]; intros self; simpl; [done|].
  destruct (setattr self k (ALogMethod d)); [done | apply IH].
Qed.

Lemma attach_loop_runs (t : CategoryTable) :
  Forall (λ k, k ∉ refused) (table_keys t) →
  ∀ self, ∃ self', attach_loop t self = (None, self').
Proof.
  induction t as [|[k d] t IH]; intros Hok self; simpl; [eauto|].
  simpl in Hok. apply Forall_cons in Hok as [Hk Hok].
  rewrite setattr_storable by done. by apply IH.
Qed.

(** The lookups after a loop over a storable table. *)
Lemma attach_loop_lookup_storable (t : CategoryTable) :
  storable_table t →
  ∀ self, ∃ self',
    attach_loop t self = (None, self') ∧
    ∀ k, self' !! k =
         match table_get t k with
         | Some d => Some (ALogMethod d)
         | None => self !! k
         end.
Proof.
  unfold storable_table. induction t as [|[k0 d0] t IH]; intros [Hnd Hok] self.
  - exists self. done.
  - simpl in *. apply NoDup_cons in Hnd as [Hk0 Hnd].
    apply Forall_cons in Hok as [Hok0 Hok].
    rewrite setattr_storable by done.
    destruct (IH (conj Hnd Hok) (<[k0 := ALogMethod d0]> self))
      as (self' & -> & Hlook).
    exists self'. split; [done|]. intros k. rewrite Hlook.
    destruct (String.eqb_spec k0 k) as [->|Hne].
    + apply table_get_None in Hk0. rewrite Hk0. by rewrite lookup_insert_eq.
    + destruct (table_get t k); [done|]. by rewrite lookup_insert_ne.
Qed.

Lemma RichLogger_storable (name : string) (w : World) :
  storable_table (class_table w) →
  ∃ f, RichLogger name w = (Returned nothing, f, after_init name w) ∧ built name w f.
Proof.
  intros Hs. rewrite RichLogger_unfold.
  destruct (attach_loop_lookup_storable _ Hs (base_attrs name (consoles w)))
    as (f & -> & Hlook).
  by exists f.
Qed.

(** When the table holds a name that [setattr] refuses, the constructor
    raises at the first such entry ([TypeError] for [__class__] and
    [__dict__], [AttributeError] for [__weakref__]), after the logger has
    been configured: the level is set and the logger has a handler.  The
    entries before the refused one are bound on the abandoned object, the
    names that come only after it are not. *)
Theorem constructor_raises_at_the_first_refused_name
    (w : World) (name : string) (t1 t2 : CategoryTable) (k : string)
    (d : Descriptor) :
  class_table w = t1 ++ (k, d) :: t2 →
  Forall (λ k', k' ∉ refused) (table_keys t1) →
  k ∈ refused →
  ∃ f,
    RichLogger name w = (Raised (refusal k), f, after_init name w) ∧
    (∀ k', k' ∈ table_keys t1 → ∃ d', f !! k' = Some (ALogMethod d')) ∧
    (∀ k', k' ∉ table_keys t1 → f !! k' = base_attrs name (consoles w) !! k') ∧
    logger_level (logger_at (logger_ref name) (logging (after_init name w))) = DEBUG ∧
    handlers (logger_at (logger_ref name) (logging (after_init name w))) ≠ [].
Proof.
  intros Ht Hok Hk. rewrite RichLogger_unfold, Ht, attach_loop_app.
  destruct (attach_loop_runs t1 Hok (base_attrs name (consoles w))) as [f Hloop].
  rewrite Hloop. cbn [attach_loop]. rewrite setattr_refused by done.
  exists f. split; [done|].
  destruct (attach_loop_bound _ _ _ Hloop) as [Hkeys _].
  split; [done|]. split; [by apply attach_loop_other|].
  rewrite after_init_logger. split; [apply configured_level|].
  unfold configured. by destruct (handlers (logger_at (logger_ref name) (logging w))).
Qed.

Lemma constructor_raises_at_the_first_refused_name_witness :
  ∃ f,
    RichLogger "demo"
      (mkWorld (LOG_CATEGORIES ++ [("__class__"%string, mkDescriptor "CLASS" "white" INFO)])
         fresh_logging 0)
    = (Raised TypeError, f,
       after_init "demo"
         (mkWorld (LOG_CATEGORIES ++ [("__class__"%string, mkDescriptor "CLASS" "white" INFO)])
            fresh_logging 0)) ∧
    (∃ d', f !! "debug" = Some (ALogMethod d')) ∧
    f !! "__class__" = None.
Proof.
  destruct (constructor_raises_at_the_first_refused_name
              (mkWorld (LOG_CATEGORIES ++ [("__class__"%string, mkDescriptor "CLASS" "white" INFO)])
                 fresh_logging 0)
              "demo" LOG_CATEGORIES [] "__class__" (mkDescriptor "CLASS" "white" INFO))
    as (f & Hnew & Hbound & Hrest & _).
  - reflexivity.
  - apply (bool_decide_unpack _). vm_compute. reflexivity.
  - apply (bool_decide_unpack _). vm_compute. reflexivity.
  - exists f. split; [exact Hnew|]. split.
    + apply Hbound. apply (bool_decide_unpack _). vm_compute. reflexivity.
    + rewrite Hrest; [reflexivity|]. apply (bool_decide_unpack _). vm_compute. reflexivity.
Defined.

(* ===================================================================== *)
(** ** Names of the table that meet the object's own attributes *)
(* ===================================================================== *)

(** An entry named [log] disables every generated operation, not only its
    own: each of them looks [log] up on the instance, finds the generated
    method instead of [RichLogger.log], and the call with the keywords
    [color] and [level] raises [TypeError].  Nothing is logged and nothing
    is changed. *)
Theorem entry_named_log_disables_every_operation
    (w : World) (name c message : string) (d : Descriptor)
    (active : option Exc) (w' : World) :
  storable_table (class_table w) →
  "log"%string ∈ table_keys (class_table w) →
  table_get (class_table w) c = Some d →
  ∃ f, RichLogger name w = (Returned nothing, f, after_init name w) ∧
       invoke f c message active w' = (Raised TypeError, f, w').
Proof.
  intros Hs Hlog Hc. destruct (RichLogger_storable name w Hs) as (f & Hnew & Hb).
  exists f. split; [done|].
  rewrite (invoke_method_frame f c d) by by rewrite Hb, Hc.
  unfold log_method, getattr. rewrite Hb.
  destruct (table_get (class_table w) "log") as [dl|] eqn:El; [done|].
  by apply table_get_None in El.
Qed.

Lemma entry_named_log_disables_every_operation_witness :
  ∃ f, RichLogger "demo" startup_with_log
       = (Returned nothing, f, after_init "demo" startup_with_log) ∧
       invoke f "error" "Failure" None (after_init "demo" startup_with_log)
       = (Raised TypeError, f, after_init "demo" startup_with_log).
Proof.
  apply (entry_named_log_disables_every_operation startup_with_log "demo" "error"
           "Failure" (mkDescriptor "ERROR" "red" ERROR) None).
  - apply (bool_decide_unpack _). vm_compute. reflexivity.
  - apply (bool_decide_unpack _). vm_compute. reflexivity.
  - reflexivity.
Defined.

(** An entry named [logger] (in a table without [log]) replaces the
    logger on the instance by a method: every generated operation reaches
    [RichLogger.log], which finds no [log] on that method and raises
    [AttributeError].  Nothing is logged and nothing is changed. *)
Theorem entry_named_logger_disables_every_operation
    (w : World) (name c message : string) (d : Descriptor)
    (active : option Exc) (w' : World) :
  storable_table (class_table w) →
  "logger"%string ∈ table_keys (class_table w) →
  "log"%string ∉ table_keys (class_table w) →
  table_get (class_table w) c = Some d →
  ∃ f, RichLogger name w = (Returned nothing, f, after_init name w) ∧
       invoke f c message active w' = (Raised AttributeError, f, w').
Proof.
  intros Hs Hlogger Hlog Hc.
  destruct (RichLogger_storable name w Hs) as (f & Hnew & Hb).
  exists f. split; [done|].
  rewrite (invoke_method_frame f c d) by by rewrite Hb, Hc.
  apply table_get_None in Hlog.
  unfold log_method, getattr. rewrite Hb, Hlog.
  unfold base_attrs at 1. rewrite !lookup_insert_ne, lookup_empty by done.
  cbn [class_attr String.eqb Ascii.eqb Bool.eqb]. simpl class_attr. cbv iota.
  unfold RichLogger_log, getattr. rewrite Hb.
  destruct (table_get (class_table w) "logger") as [dl|] eqn:El; [done|].
  by apply table_get_None in El.
Qed.

Lemma entry_named_logger_disables_every_operation_witness :
  let w := mkWorld (LOG_CATEGORIES ++ [("logger"%string, mkDescriptor "LOGGER" "white" INFO)])
             fresh_logging 0 in
  ∃ f, RichLogger "demo" w = (Returned nothing, f, after_init "demo" w) ∧
       invoke f "read" "Loading dataset" None (after_init "demo" w)
       = (Raised AttributeError, f, after_init "demo" w).
Proof.
  intros w.
  apply (entry_named_logger_disables_every_operation w "demo" "read"
           "Loading dataset" (mkDescriptor "READ" "magenta" INFO) None).
  - apply (bool_decide_unpack _). vm_compute. reflexivity.
  - apply (bool_decide_unpack _). vm_compute. reflexivity.
  - apply (bool_decide_unpack _). vm_compute. reflexivity.
  - reflexivity.
Defined.

(** The object's own attributes are no category operations: called with a
    message, [console] and [logger] are not callable, [LOG_CATEGORIES] is
    a dict, [log] misses its label and [_attach_log_methods] gets an
    argument too many.  Each raises [TypeError], makes no record and
    changes nothing, as long as the table has no entry of that name. *)
Theorem own_attribute_called_as_operation_raises_TypeError
    (w : World) (name k message : string) (active : option Exc)
    (f : Instance) (w1 w' : World) :
  RichLogger name w = (Returned nothing, f, w1) →
  k ∈ own_attributes →
  table_get (class_table w) k = None →
  invoke f k message active w' = (Raised TypeError, f, w').
Proof.
  intros Hnew Hk Hnone.
  destruct (RichLogger_returned name w f w1 Hnew) as [_ Hloop].
  apply table_get_None in Hnone.
  pose proof (attach_loop_other _ _ _ Hloop k Hnone) as Hf.
  unfold own_attributes in Hk. rewrite !elem_of_cons, elem_of_nil in Hk.
  unfold invoke, getattr. rewrite Hf. unfold base_attrs.
  destruct Hk as [->|[->|[->|[->|[->|[]]]]]].
  - by rewrite lookup_insert_ne, lookup_insert_eq by done.
  - by rewrite lookup_insert_eq.
  - by rewrite !lookup_insert_ne, lookup_empty by done.
  - by rewrite !lookup_insert_ne, lookup_empty by done.
  - by rewrite !lookup_insert_ne, lookup_empty by done.
Qed.

Lemma own_attribute_called_as_operation_raises_TypeError_witness :
  invoke (RichLogger "demo" startup).1.2 "logger" "hello" None
    (RichLogger "demo" startup).2
  = (Raised TypeError, (RichLogger "demo" startup).1.2, (RichLogger "demo" startup).2).
Proof.
  apply (own_attribute_called_as_operation_raises_TypeError startup "demo" "logger"
           "hello" None (RichLogger "demo" startup).1.2 (RichLogger "demo" startup).2).
  - vm_compute. reflexivity.
  - apply (bool_decide_unpack _). vm_compute. reflexivity.
  - reflexivity.
Defined.

(* ===================================================================== *)
(** ** Several objects *)
(* ===================================================================== *)


(** Every construction makes a console of its own, but only the first one
    for a name builds a handler: the second object's [console] attribute
    is a console no handler writes to, while the logger keeps the handler
    built around the first object's console. *)
Theorem second_object_has_an_unused_console (w : World) (name : string) :
  class_table w = LOG_CATEGORIES →
  handlers (logger_at (logger_ref name) (logging w)) = [] →
  ∃ f1 f2 w1 w2,
    RichLogger name w = (Returned nothing, f1, w1) ∧
    RichLogger name w1 = (Returned nothing, f2, w2) ∧
    f1 !! "console" = Some (AConsole (consoles w)) ∧
    f2 !! "console" = Some (AConsole (S (consoles w))) ∧
    handlers (logger_at (logger_ref name) (logging w2))
    = [mkHandler (RichHandler (consoles w) true false true true true) NOTSET] ∧
    consoles w2 = S (S (consoles w)).
Proof.
  intros Hshipped Hnone.
  assert (class_table (after_init name w) = LOG_CATEGORIES) as Hshipped1 by done.
  destruct (RichLogger_usable name w (shipped_usable w Hshipped))
    as (f1 & Hnew1 & Hb1).
  destruct (RichLogger_usable name (after_init name w)
              (shipped_usable _ Hshipped1)) as (f2 & Hnew2 & Hb2).
  exists f1, f2, (after_init name w), (after_init name (after_init name w)).
  split; [done|]. split; [done|]. split.
  { rewrite Hb1, Hshipped. unfold base_attrs.
    by rewrite lookup_insert_ne, lookup_insert_eq by done. }
  split.
  { rewrite Hb2, Hshipped1. unfold base_attrs.
    by rewrite lookup_insert_ne, lookup_insert_eq by done. }
  split; [|done].
  rewrite after_init_twice, after_init_logger. unfold configured. by rewrite Hnone.
Qed.

Lemma second_object_has_an_unused_console_witness :
  ∃ f1 f2 w1 w2,
    RichLogger "demo" startup = (Returned nothing, f1, w1) ∧
    RichLogger "demo" w1 = (Returned nothing, f2, w2) ∧
    f1 !! "console" = Some (AConsole 0) ∧
    f2 !! "console" = Some (AConsole 1) ∧
    handlers (logger_at (logger_ref "demo") (logging w2))
    = [mkHandler (RichHandler 0 true false true true true) NOTSET] ∧
    consoles w2 = 2%nat.
Proof.
  exact (second_object_has_an_unused_console startup "demo" eq_refl eq_refl).
Defined.





(* ===================================================================== *)
(** ** Entries added to the table *)
(* ===================================================================== *)

(** A category whose level is below [DEBUG] never logs: its operation
    exists and returns normally, but the logger, set to [DEBUG] by the
    constructor, lets no record of that level be made. *)
Theorem category_below_DEBUG_is_silent
    (w : World) (name c message : string) (d : Descriptor) (active : option Exc) :
  usable_table (class_table w) →
  table_get (class_table w) c = Some d →
  level d < DEBUG →
  ∃ f, RichLogger name w = (Returned nothing, f, after_init name w) ∧
       invoke f c message active (after_init name w)
       = (Returned nothing, f, after_init name w).
Proof.
  intros Hu Hc Hlv. destruct (RichLogger_usable name w Hu) as (f & Hnew & Hb).
  exists f. split; [done|].
  destruct (invoke_built name w f c d message active (after_init name w) Hu Hb Hc)
    as [-> ->].
  unfold Logger_log.
  rewrite isEnabledFor_set; rewrite after_init_logger, configured_level; [|done].
  by destruct (Z.leb_spec DEBUG (level d)); [lia|].
Qed.

Lemma category_below_DEBUG_is_silent_witness :
  let w := mkWorld (LOG_CATEGORIES ++ [("trace"%string, mkDescriptor "TRACE" "white" 5)])
             fresh_logging 0 in
  ∃ f, RichLogger "demo" w = (Returned nothing, f, after_init "demo" w) ∧
       invoke f "trace" "entering loop" None (after_init "demo" w)
       = (Returned nothing, f, after_init "demo" w).
Proof.
  intros w.
  apply (category_below_DEBUG_is_silent w "demo" "trace" "entering loop"
           (mkDescriptor "TRACE" "white" 5) None).
  - apply (bool_decide_unpack _). vm_compute. reflexivity.
  - reflexivity.
  - unfold DEBUG. simpl. lia.
Defined.


